(** * Lecture catalog client: [frontend/app/student/lectures.ts]

    A shallow embedding of the two catalog reads [fetchLectures] and
    [fetchLecture], of the module constant [apiBaseUrl], and of the part
    of the JavaScript platform they touch: the process environment, the
    [fetch] call, the [ok] flag of a response and its [json()] method.

    An [async] function is a computation that, run against the outside
    world, leaves a trace of the platform calls it made and settles
    either with a value or with a thrown error. *)

From Stdlib Require Import String List ZArith Bool Lia SpecFloat.
Import ListNotations.

Local Open Scope list_scope.
Local Open Scope string_scope.

(** ** JavaScript values produced by a JSON decoder *)

(** Numbers are IEEE-754 doubles; an object keeps its properties in
    insertion order. *)
#[local] Set Warnings "-register-all".
Inductive JsValue : Type :=
| JNull
| JBool (b : bool)
| JNumber (x : spec_float)
| JString (s : string)
| JArray (items : list JsValue)
| JObject (props : list (string * JsValue)).

(** A thrown value.  [new Error(msg)] has name ["Error"]; the platform
    throws errors of other names ([TypeError], [SyntaxError], ...). *)
Record JsError : Type := mkJsError { name : string; message : string }.

Definition Error (msg : string) : JsError :=
  {| name := "Error"; message := msg |}.

(** How a promise settles. *)
Inductive Settled (A : Type) : Type :=
| Fulfilled (a : A)
| Rejected (e : JsError).
Arguments Fulfilled {A} a.
Arguments Rejected {A} e.

(** ** The [Lecture] type (lines 1-14 of the source) *)

Module Concept.
Record t : Type := mk { title : string; timestamp : string }.
End Concept.

Module Lecture.
Record t : Type := mk {
  slug : string;
  title : string;
  description : string;
  duration : string;
  image : string;
  publishedDate : string;
  views : string;
  aiSummary : string;
  keyConcepts : list Concept.t
}.
End Lecture.

(** Property access [v.key] on a decoded value. *)
Fixpoint lookup (key : string) (props : list (string * JsValue))
  : option JsValue :=
  match props with
  | [] => None
  | (k, v) :: rest => if String.eqb k key then Some v else lookup key rest
  end.

Definition prop (v : JsValue) (key : string) : option JsValue :=
  match v with
  | JObject props => lookup key props
  | _ => None
  end.

Definition string_prop (v : JsValue) (key : string) : option string :=
  match prop v key with
  | Some (JString s) => Some s
  | _ => None
  end.

Definition obind {A B} (o : option A) (k : A -> option B) : option B :=
  match o with
  | Some a => k a
  | None => None
  end.

Fixpoint read_all {A} (read : JsValue -> option A) (vs : list JsValue)
  : option (list A) :=
  match vs with
  | [] => Some []
  | v :: rest =>
      obind (read v) (fun a =>
      obind (read_all read rest) (fun others => Some (a :: others)))
  end.

Definition array_prop {A} (read : JsValue -> option A)
    (v : JsValue) (key : string) : option (list A) :=
  match prop v key with
  | Some (JArray items) => read_all read items
  | _ => None
  end.

(** A decoded value read at the type of one key-concept marker:
    both properties present and string-typed. *)
Definition read_Concept (v : JsValue) : option Concept.t :=
  obind (string_prop v "title") (fun t =>
  obind (string_prop v "timestamp") (fun ts =>
  Some (Concept.mk t ts))).

(** A decoded value read at type [Lecture]: every property of the type
    declaration present with the declared type. *)
Definition read_Lecture (v : JsValue) : option Lecture.t :=
  obind (string_prop v "slug") (fun f1 =>
  obind (string_prop v "title") (fun f2 =>
  obind (string_prop v "description") (fun f3 =>
  obind (string_prop v "duration") (fun f4 =>
  obind (string_prop v "image") (fun f5 =>
  obind (string_prop v "publishedDate") (fun f6 =>
  obind (string_prop v "views") (fun f7 =>
  obind (string_prop v "aiSummary") (fun f8 =>
  obind (array_prop read_Concept v "keyConcepts") (fun f9 =>
  Some (Lecture.mk f1 f2 f3 f4 f5 f6 f7 f8 f9)))))))))).

(** [v] is a well-formed Lecture object whose fields are those of [l]. *)
Definition is_Lecture (v : JsValue) (l : Lecture.t) : Prop :=
  read_Lecture v = Some l.

(** The object a JSON encoder writes for a lecture. *)
Definition Concept_json (c : Concept.t) : JsValue :=
  JObject [ ("title", JString (Concept.title c));
            ("timestamp", JString (Concept.timestamp c)) ].

Definition Lecture_json (l : Lecture.t) : JsValue :=
  JObject [ ("slug", JString (Lecture.slug l));
            ("title", JString (Lecture.title l));
            ("description", JString (Lecture.description l));
            ("duration", JString (Lecture.duration l));
            ("image", JString (Lecture.image l));
            ("publishedDate", JString (Lecture.publishedDate l));
            ("views", JString (Lecture.views l));
            ("aiSummary", JString (Lecture.aiSummary l));
            ("keyConcepts", JArray (map Concept_json (Lecture.keyConcepts l))) ].

(** ** The platform *)

(** The cache modes of a request ([RequestCache]). *)
Inductive RequestCache : Type :=
| cache_default | no_store | reload | no_cache | force_cache | only_if_cached.

(** Only ["no-store"] makes the HTTP mechanism go to the network without
    reading from and without writing to its cache. *)
Definition disables_caching (c : RequestCache) : bool :=
  match c with
  | no_store => true
  | _ => false
  end.

(** The second argument of [fetch], as far as the source sets it. *)
Record RequestInit : Type := { cache : RequestCache }.

(** A response: its status code and how the promise of [json()] settles
    ([Rejected] when the body is not JSON text). *)
Record Response : Type := { status : Z; json : Settled JsValue }.

(** [response.ok]: the status is in the range 200 to 299. *)
Definition ok (r : Response) : bool :=
  (200 <=? status r)%Z && (status r <=? 299)%Z.

(** The calls a computation makes on the platform. *)
Inductive Event : Type :=
| EnvRead (variable : string)
| Fetch (url : string) (init : RequestInit)
| ReadJson.

(** The outside world as one computation sees it. *)
Record World : Type := {
  process_env : string -> option string;
  network : string -> RequestInit -> Settled Response
}.

(** ** Asynchronous computations *)

Definition Async (A : Type) : Type := World -> list Event * Settled A.

Definition ret {A} (a : A) : Async A :=
  fun _ => ([], Fulfilled a).

Definition throw {A} (e : JsError) : Async A :=
  fun _ => ([], Rejected e).

(** [await]: a rejection leaves the function at once, nothing catches it. *)
Definition bind {A B} (m : Async A) (k : A -> Async B) : Async B :=
  fun w =>
    match m w with
    | (t, Fulfilled a) => let (t', r) := k a w in ((t ++ t')%list, r)
    | (t, Rejected e) => (t, Rejected e)
    end.

Notation "x <- m ;; k" := (bind m (fun x => k))
  (at level 61, m at next level, right associativity).

Definition env (variable : string) : Async (option string) :=
  fun w => ([EnvRead variable], Fulfilled (process_env w variable)).

Definition fetch (url : string) (init : RequestInit) : Async Response :=
  fun w => ([Fetch url init], network w url init).

Definition response_json (r : Response) : Async JsValue :=
  fun _ => ([ReadJson], json r).

(** [a ?? b]. *)
Definition nullish {A} (a : option A) (b : A) : A :=
  match a with
  | Some v => v
  | None => b
  end.

Notation "a ?? b" := (nullish a b) (at level 50, left associativity).

(** ** The module *)

(** The module-level bindings, fixed when the module is evaluated. *)
Record Module : Type := { apiBaseUrl : string }.

(** Line 16. *)
Definition load : Async Module :=
  override <- env "NEXT_PUBLIC_API_URL" ;;
  ret {| apiBaseUrl := override ?? "http://localhost:8000" |}.

Section Operations.

Variable this : Module.

(** Lines 18-29. *)
Definition fetchLectures : Async JsValue :=
  response <- fetch (apiBaseUrl this ++ "/api/lectures")
                    {| cache := no_store |} ;;
  if negb (ok response) then
    throw (Error "Unable to load lectures")
  else
    payload <- response_json response ;;
    ret payload.

(** Lines 31-42. *)
Definition fetchLecture (slug : string) : Async JsValue :=
  response <- fetch (apiBaseUrl this ++ "/api/lectures/" ++ slug)
                    {| cache := no_store |} ;;
  if negb (ok response) then
    throw (Error "Lecture not found")
  else
    payload <- response_json response ;;
    ret payload.

End Operations.

(** ** Callers *)

(** One call of an exported function. *)
Inductive Call : Type :=
| CallFetchLectures
| CallFetchLecture (slug : string).

Definition perform (this : Module) (c : Call) : Async JsValue :=
  match c with
  | CallFetchLectures => fetchLectures this
  | CallFetchLecture slug => fetchLecture this slug
  end.

(** A process: the module is evaluated in the world [w0], then the
    calls of [script] are made one after the other, each in the world
    as it is by then.  The result is the trace of the whole run. *)
Fixpoint session (this : Module) (script : list (World * Call))
  : list Event :=
  match script with
  | [] => []
  | (w, c) :: rest => (fst (perform this c w) ++ session this rest)%list
  end.

Definition process (w0 : World) (script : list (World * Call))
  : list Event :=
  match load w0 with
  | (t, Fulfilled this) => (t ++ session this script)%list
  | (t, Rejected _) => t
  end.

(** ** Reading a trace *)

Fixpoint requests (t : list Event) : list (string * RequestInit) :=
  match t with
  | [] => []
  | Fetch url init :: rest => (url, init) :: requests rest
  | _ :: rest => requests rest
  end.

Fixpoint env_reads (t : list Event) : list string :=
  match t with
  | [] => []
  | EnvRead x :: rest => x :: env_reads rest
  | _ :: rest => env_reads rest
  end.

(** The status is a success status. *)
Definition success (r : Response) : Prop :=
  (200 <= status r <= 299)%Z.

(** A failure below the HTTP status: the transport gave no response, or
    the body of a success response did not decode. *)
Inductive lower_level_failure (reply : Settled Response) (e : JsError)
  : Prop :=
| transport_failure :
    reply = Rejected e -> lower_level_failure reply e
| decode_failure (r : Response) :
    reply = Fulfilled r -> ok r = true -> json r = Rejected e ->
    lower_level_failure reply e.

(** ** Simulated worlds *)

Module Simulated.

Definition localhost : Module :=
  {| apiBaseUrl := "http://localhost:8000" |}.

Definition not_found : Response :=
  {| status := 404;
     json := Fulfilled (JObject [("detail", JString "Not Found")]) |}.

(** A service that answers [reply] at [url] and 404 everywhere else. *)
Definition serves (url : string) (reply : Settled Response) : World :=
  {| process_env := fun _ => None;
     network := fun u _ =>
       if String.eqb u url then reply else Fulfilled not_found |}.

(** The same service, seen from a process whose environment sets
    every variable to [value]. *)
Definition with_env (value : string) (w : World) : World :=
  {| process_env := fun _ => Some value; network := network w |}.

Definition lecture_a : Lecture.t :=
  Lecture.mk "a" "A" "d" "10:00" "/a.png" "2024-01-01" "100" "s" [].

Definition unreachable : JsError :=
  mkJsError "TypeError" "fetch failed".

Definition bad_json : JsError :=
  mkJsError "SyntaxError" "Unexpected end of JSON input".

(** 503 with an empty body. *)
Definition overloaded : Response :=
  {| status := 503; json := Rejected bad_json |}.

End Simulated.

(** * Properties *)

(** ** The platform and the [Lecture] type *)

Lemma ok_success (r : Response) : ok r = true <-> success r.
Proof.
  unfold ok, success.
  rewrite andb_true_iff, !Z.leb_le. reflexivity.
Qed.

Lemma ok_failure (r : Response) : ok r = false <-> ~ success r.
Proof.
  rewrite <- ok_success.
  destruct (ok r); split; intro H; try reflexivity; try discriminate.
  exfalso. apply H. reflexivity.
Qed.

Lemma read_all_length {A} (read : JsValue -> option A) vs :
  forall ls, read_all read vs = Some ls -> length vs = length ls.
Proof.
  induction vs as [|v vs IH]; simpl; intros ls H.
  - injection H as <-. reflexivity.
  - destruct (read v) as [a|]; simpl in H; [|discriminate].
    destruct (read_all read vs) as [others|]; simpl in H; [|discriminate].
    injection H as <-. simpl. f_equal. apply IH. reflexivity.
Qed.

(** Reading a whole array succeeds exactly when it succeeds element by
    element, position by position. *)
Lemma read_all_Forall2 {A} (read : JsValue -> option A) vs :
  forall ls, read_all read vs = Some ls <->
             Forall2 (fun v l => read v = Some l) vs ls.
Proof.
  induction vs as [|v vs IH]; simpl; intros ls; split; intro H.
  - injection H as <-. constructor.
  - inversion H. reflexivity.
  - destruct (read v) as [a|] eqn:Ea; simpl in H; [|discriminate].
    destruct (read_all read vs) as [others|] eqn:Er; simpl in H;
      [|discriminate].
    injection H as <-. constructor; [exact Ea|]. apply IH. reflexivity.
  - inversion H as [|v' l vs' ls' Hv Hrest]; subst.
    rewrite Hv. simpl.
    apply IH in Hrest. rewrite Hrest. reflexivity.
Qed.

Lemma read_Concept_json (c : Concept.t) : read_Concept (Concept_json c) = Some c.
Proof. destruct c. reflexivity. Qed.

Lemma read_all_Concept_json (cs : list Concept.t) :
  read_all read_Concept (map Concept_json cs) = Some cs.
Proof.
  induction cs as [|c cs IH]; [reflexivity|].
  cbn [map read_all]. rewrite read_Concept_json, IH. reflexivity.
Qed.

(** Encoding a lecture and reading it back gives the lecture. *)
Lemma read_Lecture_json (l : Lecture.t) : is_Lecture (Lecture_json l) l.
Proof.
  destruct l. unfold is_Lecture, read_Lecture, Lecture_json.
  cbn -[read_all map read_Concept].
  rewrite read_all_Concept_json. reflexivity.
Qed.

(** What a well-formed Lecture object holds under each property name. *)
Lemma is_Lecture_fields (v : JsValue) (l : Lecture.t) :
  is_Lecture v l ->
  string_prop v "slug" = Some (Lecture.slug l) /\
  string_prop v "title" = Some (Lecture.title l) /\
  string_prop v "description" = Some (Lecture.description l) /\
  string_prop v "duration" = Some (Lecture.duration l) /\
  string_prop v "image" = Some (Lecture.image l) /\
  string_prop v "publishedDate" = Some (Lecture.publishedDate l) /\
  string_prop v "views" = Some (Lecture.views l) /\
  string_prop v "aiSummary" = Some (Lecture.aiSummary l) /\
  array_prop read_Concept v "keyConcepts" = Some (Lecture.keyConcepts l).
Proof.
  unfold is_Lecture, read_Lecture. intro H.
  repeat match type of H with
         | obind ?o _ = Some _ =>
             destruct o; cbn [obind] in H; [|discriminate H]
         end.
  injection H as <-. cbn. repeat split; reflexivity.
Qed.

(** ** One round trip, case by case *)

Ltac run_async :=
  unfold fetchLectures, fetchLecture, load, bind, fetch, env,
    response_json, throw, ret;
  cbn [fst snd app].

Section RoundTrip.

Variable this : Module.
Variable w : World.

(** The transport gave no response. *)
Lemma fetchLectures_transport e :
  network w (apiBaseUrl this ++ "/api/lectures") {| cache := no_store |}
    = Rejected e ->
  fetchLectures this w
    = ([Fetch (apiBaseUrl this ++ "/api/lectures") {| cache := no_store |}],
       Rejected e).
Proof. intro H. run_async. rewrite H. reflexivity. Qed.

Lemma fetchLectures_not_ok r :
  network w (apiBaseUrl this ++ "/api/lectures") {| cache := no_store |}
    = Fulfilled r ->
  ok r = false ->
  fetchLectures this w
    = ([Fetch (apiBaseUrl this ++ "/api/lectures") {| cache := no_store |}],
       Rejected (Error "Unable to load lectures")).
Proof. intros H Hok. run_async. rewrite H, Hok. reflexivity. Qed.

Lemma fetchLectures_ok r :
  network w (apiBaseUrl this ++ "/api/lectures") {| cache := no_store |}
    = Fulfilled r ->
  ok r = true ->
  fetchLectures this w
    = ([Fetch (apiBaseUrl this ++ "/api/lectures") {| cache := no_store |};
        ReadJson],
       json r).
Proof.
  intros H Hok. run_async. rewrite H, Hok. cbn.
  destruct (json r); reflexivity.
Qed.

Variable slug : string.

Lemma fetchLecture_transport e :
  network w (apiBaseUrl this ++ "/api/lectures/" ++ slug)
    {| cache := no_store |} = Rejected e ->
  fetchLecture this slug w
    = ([Fetch (apiBaseUrl this ++ "/api/lectures/" ++ slug)
          {| cache := no_store |}],
       Rejected e).
Proof. intro H. run_async. rewrite H. reflexivity. Qed.

Lemma fetchLecture_not_ok r :
  network w (apiBaseUrl this ++ "/api/lectures/" ++ slug)
    {| cache := no_store |} = Fulfilled r ->
  ok r = false ->
  fetchLecture this slug w
    = ([Fetch (apiBaseUrl this ++ "/api/lectures/" ++ slug)
          {| cache := no_store |}],
       Rejected (Error "Lecture not found")).
Proof. intros H Hok. run_async. rewrite H, Hok. reflexivity. Qed.

Lemma fetchLecture_ok r :
  network w (apiBaseUrl this ++ "/api/lectures/" ++ slug)
    {| cache := no_store |} = Fulfilled r ->
  ok r = true ->
  fetchLecture this slug w
    = ([Fetch (apiBaseUrl this ++ "/api/lectures/" ++ slug)
          {| cache := no_store |};
        ReadJson],
       json r).
Proof.
  intros H Hok. run_async. rewrite H, Hok. cbn.
  destruct (json r); reflexivity.
Qed.

End RoundTrip.

(** ** Traces *)

Lemma append_assoc (a b c : string) : (a ++ b) ++ c = a ++ (b ++ c).
Proof. induction a as [|x a IH]; cbn; [|rewrite IH]; reflexivity. Qed.

Lemma requests_app (t t' : list Event) :
  requests (t ++ t') = (requests t ++ requests t')%list.
Proof.
  induction t as [|[x|url init|] t IH]; cbn; rewrite ?IH; reflexivity.
Qed.

Lemma env_reads_app (t t' : list Event) :
  env_reads (t ++ t') = (env_reads t ++ env_reads t')%list.
Proof.
  induction t as [|[x|url init|] t IH]; cbn; rewrite ?IH; reflexivity.
Qed.

(** Each operation makes one [fetch] call and, on a success status, one
    [json()] call; nothing else. *)
Lemma fetchLectures_trace (this : Module) (w : World) :
  exists rest,
    fst (fetchLectures this w)
      = Fetch (apiBaseUrl this ++ "/api/lectures") {| cache := no_store |}
        :: rest
    /\ (rest = [] \/ rest = [ReadJson]).
Proof.
  destruct (network w (apiBaseUrl this ++ "/api/lectures")
              {| cache := no_store |}) as [r|e] eqn:Hnet.
  - destruct (ok r) eqn:Hok.
    + rewrite (fetchLectures_ok this w r Hnet Hok). cbn [fst]. eauto.
    + rewrite (fetchLectures_not_ok this w r Hnet Hok). cbn [fst]. eauto.
  - rewrite (fetchLectures_transport this w e Hnet). cbn [fst]. eauto.
Qed.

Lemma fetchLecture_trace (this : Module) (slug : string) (w : World) :
  exists rest,
    fst (fetchLecture this slug w)
      = Fetch (apiBaseUrl this ++ "/api/lectures/" ++ slug)
          {| cache := no_store |} :: rest
    /\ (rest = [] \/ rest = [ReadJson]).
Proof.
  destruct (network w (apiBaseUrl this ++ "/api/lectures/" ++ slug)
              {| cache := no_store |}) as [r|e] eqn:Hnet.
  - destruct (ok r) eqn:Hok.
    + rewrite (fetchLecture_ok this w slug r Hnet Hok). cbn [fst]. eauto.
    + rewrite (fetchLecture_not_ok this w slug r Hnet Hok). cbn [fst]. eauto.
  - rewrite (fetchLecture_transport this w slug e Hnet). cbn [fst]. eauto.
Qed.

Lemma fetchLectures_requests (this : Module) (w : World) :
  requests (fst (fetchLectures this w))
    = [(apiBaseUrl this ++ "/api/lectures", {| cache := no_store |})].
Proof.
  destruct (fetchLectures_trace this w) as (rest & -> & [-> | ->]);
    reflexivity.
Qed.

Lemma fetchLecture_requests (this : Module) (slug : string) (w : World) :
  requests (fst (fetchLecture this slug w))
    = [(apiBaseUrl this ++ "/api/lectures/" ++ slug,
        {| cache := no_store |})].
Proof.
  destruct (fetchLecture_trace this slug w) as (rest & -> & [-> | ->]);
    reflexivity.
Qed.

Lemma perform_env_reads (this : Module) (c : Call) (w : World) :
  env_reads (fst (perform this c w)) = [].
Proof.
  destruct c as [|slug]; cbn [perform].
  - destruct (fetchLectures_trace this w) as (rest & -> & [-> | ->]);
      reflexivity.
  - destruct (fetchLecture_trace this slug w) as (rest & -> & [-> | ->]);
      reflexivity.
Qed.

Lemma listed_statuses_fail (r : Response) :
  In (status r) [400; 404; 500; 503]%Z -> ~ success r.
Proof. unfold success. cbn [In]. lia. Qed.

Create HintDb catalog.
#[local] Hint Resolve -> ok_success ok_failure : catalog.
#[local] Hint Resolve <- ok_success ok_failure : catalog.
#[local] Hint Resolve listed_statuses_fail : catalog.

(** ** Two runs *)

(** The service returns 200 and a one-lecture array. *)
Example listing_of_one_lecture :
  fetchLectures Simulated.localhost
    (Simulated.serves "http://localhost:8000/api/lectures"
       (Fulfilled
          {| status := 200;
             json := Fulfilled (JArray [Lecture_json Simulated.lecture_a]) |}))
  = ([Fetch "http://localhost:8000/api/lectures" {| cache := no_store |};
      ReadJson],
     Fulfilled (JArray [Lecture_json Simulated.lecture_a])).
Proof. reflexivity. Qed.

(** The module is evaluated with the variable unset; by the time of the
    calls the environment sets it, and the requests still go to the
    address bound at evaluation. *)
Example later_environment_is_not_read :
  process (Simulated.serves "" (Rejected Simulated.unreachable))
    [ (Simulated.with_env "http://elsewhere"
         (Simulated.serves "" (Rejected Simulated.unreachable)),
       CallFetchLecture "missing");
      (Simulated.with_env "http://elsewhere"
         (Simulated.serves "http://localhost:8000/api/lectures"
            (Fulfilled Simulated.overloaded)),
       CallFetchLectures) ]
  = [ EnvRead "NEXT_PUBLIC_API_URL";
      Fetch "http://localhost:8000/api/lectures/missing"
        {| cache := no_store |};
      Fetch "http://localhost:8000/api/lectures" {| cache := no_store |} ].
Proof. reflexivity. Qed.

Example override_is_used :
  load (Simulated.with_env "https://api.example.org"
          (Simulated.serves "" (Rejected Simulated.unreachable)))
  = ([EnvRead "NEXT_PUBLIC_API_URL"],
     Fulfilled {| apiBaseUrl := "https://api.example.org" |}).
Proof. reflexivity. Qed.

(** ** The listing *)

(** C1.  When the listing request is answered with a success status and
    the body decodes to an array of N well-formed Lecture objects,
    [fetchLectures] is fulfilled with an array of exactly N elements, the
    element at every position being the one received there, each still a
    well-formed Lecture object with the same fields: nothing is dropped,
    reordered, rewritten or checked. *)
Theorem fetchLectures_returns_listing_verbatim
    (this : Module) (w : World) (r : Response)
    (vs : list JsValue) (ls : list Lecture.t) :
  network w (apiBaseUrl this ++ "/api/lectures") {| cache := no_store |}
    = Fulfilled r ->
  success r ->
  json r = Fulfilled (JArray vs) ->
  Forall2 is_Lecture vs ls ->
  exists out,
    snd (fetchLectures this w) = Fulfilled (JArray out) /\
    length out = length ls /\
    (forall i, nth_error out i = nth_error vs i) /\
    Forall2 is_Lecture out ls.
Proof.
  intros Hnet Hok Hjson Hwf.
  exists vs. rewrite (fetchLectures_ok this w r Hnet) by auto with catalog.
  cbn [snd]. repeat split; auto.
  apply (read_all_length read_Lecture).
  apply read_all_Forall2. exact Hwf.
Qed.

Lemma fetchLectures_returns_listing_verbatim_witness :
  exists out,
    snd (fetchLectures Simulated.localhost
           (Simulated.serves "http://localhost:8000/api/lectures"
              (Fulfilled
                 {| status := 200;
                    json := Fulfilled
                              (JArray [Lecture_json Simulated.lecture_a]) |})))
      = Fulfilled (JArray out) /\
    length out = length [Simulated.lecture_a] /\
    (forall i, nth_error out i
               = nth_error [Lecture_json Simulated.lecture_a] i) /\
    Forall2 is_Lecture out [Simulated.lecture_a].
Proof.
  apply (fetchLectures_returns_listing_verbatim Simulated.localhost _
           {| status := 200;
              json := Fulfilled (JArray [Lecture_json Simulated.lecture_a]) |}).
  - reflexivity.
  - unfold success. simpl. lia.
  - reflexivity.
  - constructor; [reflexivity | constructor].
Defined.

(** C2.  When the listing request is answered with a status outside
    200..299 (400, 404, 500 and 503 among them), [fetchLectures] is
    rejected with the error "Unable to load lectures" whatever the body
    holds; the body is not even read, and no other error leaves the
    function on this path. *)
Theorem fetchLectures_listing_unavailable
    (this : Module) (w : World) (r : Response) :
  network w (apiBaseUrl this ++ "/api/lectures") {| cache := no_store |}
    = Fulfilled r ->
  ~ success r ->
  fetchLectures this w
    = ([Fetch (apiBaseUrl this ++ "/api/lectures") {| cache := no_store |}],
       Rejected (Error "Unable to load lectures")) /\
  (forall e, snd (fetchLectures this w) = Rejected e ->
             e = Error "Unable to load lectures").
Proof.
  intros Hnet Hfail.
  rewrite (fetchLectures_not_ok this w r Hnet) by auto with catalog.
  split; [reflexivity|].
  cbn [snd]. intros e He. injection He as <-. reflexivity.
Qed.

Lemma fetchLectures_listing_unavailable_witness :
  fetchLectures Simulated.localhost
    (Simulated.serves "http://localhost:8000/api/lectures"
       (Fulfilled Simulated.overloaded))
    = ([Fetch "http://localhost:8000/api/lectures" {| cache := no_store |}],
       Rejected (Error "Unable to load lectures")) /\
  (forall e,
     snd (fetchLectures Simulated.localhost
            (Simulated.serves "http://localhost:8000/api/lectures"
               (Fulfilled Simulated.overloaded))) = Rejected e ->
     e = Error "Unable to load lectures").
Proof.
  apply (fetchLectures_listing_unavailable Simulated.localhost _
           Simulated.overloaded).
  - reflexivity.
  - apply listed_statuses_fail. simpl. lia.
Defined.

(** ** One lecture *)

(** C3.  For a non-empty slug, when the lecture request is answered with
    a status outside 200..299 (400, 404, 500 and 503 among them),
    [fetchLecture] is rejected with the error "Lecture not found": the
    same error whatever the status and the body are. *)
Theorem fetchLecture_not_found
    (this : Module) (w : World) (slug : string) (r : Response) :
  slug <> "" ->
  network w (apiBaseUrl this ++ "/api/lectures/" ++ slug)
    {| cache := no_store |} = Fulfilled r ->
  ~ success r ->
  fetchLecture this slug w
    = ([Fetch (apiBaseUrl this ++ "/api/lectures/" ++ slug)
          {| cache := no_store |}],
       Rejected (Error "Lecture not found")).
Proof.
  intros _ Hnet Hfail.
  apply (fetchLecture_not_ok this w slug r Hnet). auto with catalog.
Qed.

Lemma fetchLecture_not_found_witness :
  fetchLecture Simulated.localhost "missing"
    (Simulated.serves "http://localhost:8000/api/lectures"
       (Fulfilled {| status := 200; json := Fulfilled (JArray []) |}))
    = ([Fetch "http://localhost:8000/api/lectures/missing"
          {| cache := no_store |}],
       Rejected (Error "Lecture not found")).
Proof.
  apply (fetchLecture_not_found Simulated.localhost _ "missing"
           Simulated.not_found).
  - discriminate.
  - reflexivity.
  - unfold success. simpl. lia.
Defined.

(** C4.  For a non-empty slug, when the lecture request is answered with
    a success status and the body decodes to one well-formed Lecture
    object, [fetchLecture] is fulfilled with that very object, every
    property of which reads as the field of the lecture received. *)
Theorem fetchLecture_returns_lecture_verbatim
    (this : Module) (w : World) (slug : string) (r : Response)
    (v : JsValue) (l : Lecture.t) :
  slug <> "" ->
  network w (apiBaseUrl this ++ "/api/lectures/" ++ slug)
    {| cache := no_store |} = Fulfilled r ->
  success r ->
  json r = Fulfilled v ->
  is_Lecture v l ->
  exists out,
    snd (fetchLecture this slug w) = Fulfilled out /\
    out = v /\
    string_prop out "slug" = Some (Lecture.slug l) /\
    string_prop out "title" = Some (Lecture.title l) /\
    string_prop out "description" = Some (Lecture.description l) /\
    string_prop out "duration" = Some (Lecture.duration l) /\
    string_prop out "image" = Some (Lecture.image l) /\
    string_prop out "publishedDate" = Some (Lecture.publishedDate l) /\
    string_prop out "views" = Some (Lecture.views l) /\
    string_prop out "aiSummary" = Some (Lecture.aiSummary l) /\
    array_prop read_Concept out "keyConcepts"
      = Some (Lecture.keyConcepts l).
Proof.
  intros _ Hnet Hok Hjson Hwf.
  exists v. rewrite (fetchLecture_ok this w slug r Hnet) by auto with catalog.
  cbn [snd]. split; [exact Hjson|]. split; [reflexivity|].
  apply is_Lecture_fields. exact Hwf.
Qed.

Lemma fetchLecture_returns_lecture_verbatim_witness :
  exists out,
    snd (fetchLecture Simulated.localhost "a"
           (Simulated.serves "http://localhost:8000/api/lectures/a"
              (Fulfilled
                 {| status := 200;
                    json := Fulfilled (Lecture_json Simulated.lecture_a) |})))
      = Fulfilled out /\
    out = Lecture_json Simulated.lecture_a /\
    string_prop out "slug" = Some "a" /\
    string_prop out "title" = Some "A" /\
    string_prop out "description" = Some "d" /\
    string_prop out "duration" = Some "10:00" /\
    string_prop out "image" = Some "/a.png" /\
    string_prop out "publishedDate" = Some "2024-01-01" /\
    string_prop out "views" = Some "100" /\
    string_prop out "aiSummary" = Some "s" /\
    array_prop read_Concept out "keyConcepts" = Some [].
Proof.
  apply (fetchLecture_returns_lecture_verbatim Simulated.localhost _ "a"
           {| status := 200;
              json := Fulfilled (Lecture_json Simulated.lecture_a) |}
           (Lecture_json Simulated.lecture_a) Simulated.lecture_a).
  - discriminate.
  - reflexivity.
  - unfold success. simpl. lia.
  - reflexivity.
  - apply read_Lecture_json.
Defined.

(** ** The requests *)

(** C5.  [fetchLectures] issues one request, to the base address followed
    by [/api/lectures] and nothing more; [fetchLecture] issues one
    request, to the base address followed by [/api/lectures/] and the
    slug as it was given, so that the slug [intro-to-systems] is asked
    for at [/api/lectures/intro-to-systems]. *)
Theorem requests_target_catalog_urls (this : Module) (w : World) :
  map fst (requests (fst (fetchLectures this w)))
    = [apiBaseUrl this ++ "/api/lectures"] /\
  (forall slug,
     map fst (requests (fst (fetchLecture this slug w)))
       = [apiBaseUrl this ++ "/api/lectures/" ++ slug]) /\
  map fst (requests (fst (fetchLecture this "intro-to-systems" w)))
    = [apiBaseUrl this ++ "/api/lectures/intro-to-systems"].
Proof.
  rewrite fetchLectures_requests. split; [reflexivity|].
  split; [intro slug|]; rewrite fetchLecture_requests; reflexivity.
Qed.

(** C6.  Whatever call is made and however the world answers, the call
    issues a request, and every request it issues carries the cache mode
    "no-store". *)
Theorem every_request_disables_caching
    (this : Module) (c : Call) (w : World) :
  requests (fst (perform this c w)) <> [] /\
  Forall (fun q => disables_caching (cache (snd q)) = true)
         (requests (fst (perform this c w))).
Proof.
  destruct c as [|slug]; cbn [perform];
    rewrite ?fetchLectures_requests, ?fetchLecture_requests;
    (split; [discriminate | repeat constructor]).
Qed.

(** ** The base address *)

(** C7.  Evaluating the module reads the variable NEXT_PUBLIC_API_URL
    once and binds [apiBaseUrl] to its value, or to
    [http://localhost:8000] when it is not set.  In the whole run of a
    process, whatever calls follow and whatever the environment holds by
    the time of each, that read stays the only one, and the request of
    every call is the bound address followed by the path of the call. *)
Theorem apiBaseUrl_resolved_once
    (w0 : World) (script : list (World * Call)) :
  let base :=
    match process_env w0 "NEXT_PUBLIC_API_URL" with
    | Some override => override
    | None => "http://localhost:8000"
    end in
  (exists this,
     load w0 = ([EnvRead "NEXT_PUBLIC_API_URL"], Fulfilled this) /\
     apiBaseUrl this = base) /\
  env_reads (process w0 script) = ["NEXT_PUBLIC_API_URL"] /\
  map fst (requests (process w0 script))
    = map (fun wc =>
             match snd wc with
             | CallFetchLectures => base ++ "/api/lectures"
             | CallFetchLecture slug => base ++ "/api/lectures/" ++ slug
             end) script.
Proof.
  intro base. split; [eexists; split; reflexivity|].
  unfold process. run_async.
  change (process_env w0 "NEXT_PUBLIC_API_URL" ?? "http://localhost:8000")
    with base.
  generalize {| apiBaseUrl := base |} (eq_refl : apiBaseUrl {| apiBaseUrl := base |} = base).
  intros this Hbase. cbn [env_reads requests].
  induction script as [|[w c] script [IHenv IHreq]]; [split; reflexivity|].
  cbn [session map snd].
  rewrite env_reads_app, requests_app, map_app, perform_env_reads.
  split.
  - exact IHenv.
  - rewrite IHreq. f_equal.
    destruct c as [|slug]; cbn [perform];
      rewrite ?fetchLectures_requests, ?fetchLecture_requests, Hbase;
      reflexivity.
Qed.

(** ** Failures below the HTTP status *)

(** C8.  When the transport rejects the request, or the body of a
    success response fails to decode, each operation is rejected with
    that very error: it is not replaced by "Unable to load lectures" or
    by "Lecture not found". *)
Theorem lower_level_failures_propagate
    (this : Module) (w : World) (slug : string) (e : JsError) :
  (lower_level_failure
     (network w (apiBaseUrl this ++ "/api/lectures")
        {| cache := no_store |}) e ->
   snd (fetchLectures this w) = Rejected e) /\
  (lower_level_failure
     (network w (apiBaseUrl this ++ "/api/lectures/" ++ slug)
        {| cache := no_store |}) e ->
   snd (fetchLecture this slug w) = Rejected e).
Proof.
  split; intros [Hnet | r Hnet Hok Hjson].
  - rewrite (fetchLectures_transport this w e Hnet). reflexivity.
  - rewrite (fetchLectures_ok this w r Hnet Hok). exact Hjson.
  - rewrite (fetchLecture_transport this w slug e Hnet). reflexivity.
  - rewrite (fetchLecture_ok this w slug r Hnet Hok). exact Hjson.
Qed.

Lemma lower_level_failures_propagate_witness :
  snd (fetchLectures Simulated.localhost
         (Simulated.serves "http://localhost:8000/api/lectures"
            (Rejected Simulated.unreachable)))
    = Rejected Simulated.unreachable /\
  snd (fetchLecture Simulated.localhost "a"
         (Simulated.serves "http://localhost:8000/api/lectures/a"
            (Fulfilled
               {| status := 200; json := Rejected Simulated.bad_json |})))
    = Rejected Simulated.bad_json.
Proof.
  split.
  - apply (proj1 (lower_level_failures_propagate Simulated.localhost _ "a"
                    Simulated.unreachable)).
    apply transport_failure. reflexivity.
  - apply (proj2 (lower_level_failures_propagate Simulated.localhost _ "a"
                    Simulated.bad_json)).
    apply (decode_failure _ _
             {| status := 200; json := Rejected Simulated.bad_json |});
      reflexivity.
Defined.

(** ** What is not checked *)

(** C9.  For every slug, the empty one included, the first thing
    [fetchLecture] does is to issue the request for the base address
    followed by [/api/lectures/] and the slug, and how it settles is
    decided by the reply alone.  For the empty slug the request goes to
    the listing address with a slash appended. *)
Theorem fetchLecture_no_local_validation
    (this : Module) (w : World) (slug : string) :
  (exists rest,
     fst (fetchLecture this slug w)
       = Fetch (apiBaseUrl this ++ "/api/lectures/" ++ slug)
           {| cache := no_store |} :: rest) /\
  snd (fetchLecture this slug w)
    = match network w (apiBaseUrl this ++ "/api/lectures/" ++ slug)
              {| cache := no_store |} with
      | Fulfilled r =>
          if ok r then json r else Rejected (Error "Lecture not found")
      | Rejected e => Rejected e
      end /\
  (exists rest,
     fst (fetchLecture this "" w)
       = Fetch ((apiBaseUrl this ++ "/api/lectures") ++ "/")
           {| cache := no_store |} :: rest).
Proof.
  split; [|split].
  - destruct (fetchLecture_trace this slug w) as (rest & H & _). eauto.
  - destruct (network w (apiBaseUrl this ++ "/api/lectures/" ++ slug)
                {| cache := no_store |}) as [r|e] eqn:Hnet.
    + destruct (ok r) eqn:Hok.
      * rewrite (fetchLecture_ok this w slug r Hnet Hok). reflexivity.
      * rewrite (fetchLecture_not_ok this w slug r Hnet Hok). reflexivity.
    + rewrite (fetchLecture_transport this w slug e Hnet). reflexivity.
  - destruct (fetchLecture_trace this "" w) as (rest & H & _).
    exists rest. rewrite H. rewrite append_assoc. reflexivity.
Qed.

(** C10.  On a success status, whatever value the body decodes to, each
    operation is fulfilled with that value: no shape is required of it. *)
Theorem success_body_returned_unvalidated
    (this : Module) (w : World) (slug : string) (r : Response)
    (v : JsValue) :
  success r ->
  json r = Fulfilled v ->
  (network w (apiBaseUrl this ++ "/api/lectures") {| cache := no_store |}
     = Fulfilled r ->
   snd (fetchLectures this w) = Fulfilled v) /\
  (network w (apiBaseUrl this ++ "/api/lectures/" ++ slug)
     {| cache := no_store |} = Fulfilled r ->
   snd (fetchLecture this slug w) = Fulfilled v).
Proof.
  intros Hok Hjson. apply ok_success in Hok. split; intro Hnet.
  - rewrite (fetchLectures_ok this w r Hnet Hok). exact Hjson.
  - rewrite (fetchLecture_ok this w slug r Hnet Hok). exact Hjson.
Qed.

Lemma success_body_returned_unvalidated_witness :
  snd (fetchLectures Simulated.localhost
         (Simulated.serves "http://localhost:8000/api/lectures"
            (Fulfilled {| status := 200; json := Fulfilled JNull |})))
    = Fulfilled JNull /\
  snd (fetchLecture Simulated.localhost "a"
         (Simulated.serves "http://localhost:8000/api/lectures/a"
            (Fulfilled
               {| status := 204;
                  json := Fulfilled (JArray [JNumber (S754_zero false)]) |})))
    = Fulfilled (JArray [JNumber (S754_zero false)]).
Proof.
  split.
  - apply (proj1 (success_body_returned_unvalidated Simulated.localhost _ "a"
                    {| status := 200; json := Fulfilled JNull |} JNull
                    ltac:(unfold success; simpl; lia) eq_refl)).
    reflexivity.
  - apply (proj2 (success_body_returned_unvalidated Simulated.localhost _ "a"
                    {| status := 204;
                       json := Fulfilled (JArray [JNumber (S754_zero false)]) |}
                    _ ltac:(unfold success; simpl; lia) eq_refl)).
    reflexivity.
Defined.


(** * Further properties of the two operations *)


(** How each operation settles, read off the reply to its request. *)
Lemma fetchLectures_settles (this : Module) (w : World) :
  snd (fetchLectures this w)
    = match network w (apiBaseUrl this ++ "/api/lectures")
              {| cache := no_store |} with
      | Fulfilled r =>
          if ok r then json r
          else Rejected (Error "Unable to load lectures")
      | Rejected e => Rejected e
      end.
Proof.
  destruct (network w (apiBaseUrl this ++ "/api/lectures")
              {| cache := no_store |}) as [r|e] eqn:Hnet.
  - destruct (ok r) eqn:Hok.
    + rewrite (fetchLectures_ok this w r Hnet Hok). reflexivity.
    + rewrite (fetchLectures_not_ok this w r Hnet Hok). reflexivity.
  - rewrite (fetchLectures_transport this w e Hnet). reflexivity.
Qed.

Lemma fetchLecture_settles (this : Module) (slug : string) (w : World) :
  snd (fetchLecture this slug w)
    = match network w (apiBaseUrl this ++ "/api/lectures/" ++ slug)
              {| cache := no_store |} with
      | Fulfilled r =>
          if ok r then json r else Rejected (Error "Lecture not found")
      | Rejected e => Rejected e
      end.
Proof.
  destruct (network w (apiBaseUrl this ++ "/api/lectures/" ++ slug)
              {| cache := no_store |}) as [r|e] eqn:Hnet.
  - destruct (ok r) eqn:Hok.
    + rewrite (fetchLecture_ok this w slug r Hnet Hok). reflexivity.
    + rewrite (fetchLecture_not_ok this w slug r Hnet Hok). reflexivity.
  - rewrite (fetchLecture_transport this w slug e Hnet). reflexivity.
Qed.

(** The two readings of a reply that the theorems below share. *)
Lemma settles_fulfilled (reply : Settled Response) (own : JsError)
    (v : JsValue) :
  match reply with
  | Fulfilled r => if ok r then json r else Rejected own
  | Rejected e => Rejected e
  end = Fulfilled v
  <-> exists r, reply = Fulfilled r /\ success r /\ json r = Fulfilled v.
Proof.
  split.
  - destruct reply as [r|e]; [|discriminate].
    destruct (ok r) eqn:Hok; [|discriminate].
    intro H. exists r. auto with catalog.
  - intros (r & -> & Hok & Hjson).
    apply ok_success in Hok. rewrite Hok. exact Hjson.
Qed.

Lemma settles_rejected (reply : Settled Response) (own e : JsError) :
  match reply with
  | Fulfilled r => if ok r then json r else Rejected own
  | Rejected e' => Rejected e'
  end = Rejected e
  <-> lower_level_failure reply e
      \/ exists r, reply = Fulfilled r /\ ~ success r /\ e = own.
Proof.
  split.
  - destruct reply as [r|e'].
    + destruct (ok r) eqn:Hok; intro H.
      * left. apply (decode_failure _ _ r); auto.
      * right. exists r. injection H as <-. auto with catalog.
    + intro H. injection H as <-. left. apply transport_failure. reflexivity.
  - intros [[-> | r -> Hok Hjson] | (r & -> & Hfail & ->)].
    + reflexivity.
    + rewrite Hok. exact Hjson.
    + apply ok_failure in Hfail. rewrite Hfail. reflexivity.
Qed.

(** X1.  An operation is fulfilled with a value exactly when its request
    was answered with a success status and the body decoded to that
    value: no value is ever made up for a failed or missing reply. *)
Theorem fulfilled_only_from_success_body
    (this : Module) (w : World) (slug : string) (v : JsValue) :
  (snd (fetchLectures this w) = Fulfilled v
   <-> exists r,
         network w (apiBaseUrl this ++ "/api/lectures")
           {| cache := no_store |} = Fulfilled r /\
         success r /\ json r = Fulfilled v) /\
  (snd (fetchLecture this slug w) = Fulfilled v
   <-> exists r,
         network w (apiBaseUrl this ++ "/api/lectures/" ++ slug)
           {| cache := no_store |} = Fulfilled r /\
         success r /\ json r = Fulfilled v).
Proof.
  rewrite fetchLectures_settles, fetchLecture_settles.
  split; apply settles_fulfilled.
Qed.

(** X2.  An operation is rejected with an error exactly in three cases:
    the transport rejected the request with that error; the reply had a
    success status and decoding its body was rejected with that error;
    or the reply had another status and the error is the operation's own
    ("Unable to load lectures", respectively "Lecture not found"). *)
Theorem rejected_exactly_when
    (this : Module) (w : World) (slug : string) (e : JsError) :
  (snd (fetchLectures this w) = Rejected e
   <-> lower_level_failure
         (network w (apiBaseUrl this ++ "/api/lectures")
            {| cache := no_store |}) e
       \/ exists r,
            network w (apiBaseUrl this ++ "/api/lectures")
              {| cache := no_store |} = Fulfilled r /\
            ~ success r /\ e = Error "Unable to load lectures") /\
  (snd (fetchLecture this slug w) = Rejected e
   <-> lower_level_failure
         (network w (apiBaseUrl this ++ "/api/lectures/" ++ slug)
            {| cache := no_store |}) e
       \/ exists r,
            network w (apiBaseUrl this ++ "/api/lectures/" ++ slug)
              {| cache := no_store |} = Fulfilled r /\
            ~ success r /\ e = Error "Lecture not found").
Proof.
  rewrite fetchLectures_settles, fetchLecture_settles.
  split; apply settles_rejected.
Qed.

(** X3.  The body of a reply is read exactly when the reply has a
    success status: on any other status, and when the transport fails,
    [json()] is never called.  The whole run of an operation is its one
    request, followed or not by one read of the body. *)
Theorem body_read_exactly_on_success
    (this : Module) (w : World) (slug : string) :
  (In ReadJson (fst (fetchLectures this w))
   <-> exists r,
         network w (apiBaseUrl this ++ "/api/lectures")
           {| cache := no_store |} = Fulfilled r /\ success r) /\
  (In ReadJson (fst (fetchLecture this slug w))
   <-> exists r,
         network w (apiBaseUrl this ++ "/api/lectures/" ++ slug)
           {| cache := no_store |} = Fulfilled r /\ success r) /\
  (fst (fetchLectures this w)
     = [Fetch (apiBaseUrl this ++ "/api/lectures") {| cache := no_store |}]
   \/ fst (fetchLectures this w)
      = [Fetch (apiBaseUrl this ++ "/api/lectures") {| cache := no_store |};
         ReadJson]) /\
  (fst (fetchLecture this slug w)
     = [Fetch (apiBaseUrl this ++ "/api/lectures/" ++ slug)
          {| cache := no_store |}]
   \/ fst (fetchLecture this slug w)
      = [Fetch (apiBaseUrl this ++ "/api/lectures/" ++ slug)
           {| cache := no_store |};
         ReadJson]).
Proof.
  assert (Hno : forall url, ~ In ReadJson [Fetch url {| cache := no_store |}]).
  { intros url [H | []]. discriminate H. }
  destruct (network w (apiBaseUrl this ++ "/api/lectures")
              {| cache := no_store |}) as [r|e] eqn:Hnet;
    [destruct (ok r) eqn:Hok|];
    [rewrite (fetchLectures_ok this w r Hnet Hok)
    |rewrite (fetchLectures_not_ok this w r Hnet Hok)
    |rewrite (fetchLectures_transport this w e Hnet)];
  (destruct (network w (apiBaseUrl this ++ "/api/lectures/" ++ slug)
              {| cache := no_store |}) as [r'|e'] eqn:Hnet';
    [destruct (ok r') eqn:Hok'|];
    [rewrite (fetchLecture_ok this w slug r' Hnet' Hok')
    |rewrite (fetchLecture_not_ok this w slug r' Hnet' Hok')
    |rewrite (fetchLecture_transport this w slug e' Hnet')]);
  cbn [fst];
  repeat match goal with
         | |- _ /\ _ => split
         | |- _ <-> _ => split
         | |- _ -> _ => intro
         end;
  repeat match goal with
         | H : In ReadJson [Fetch _ _] |- _ => destruct (Hno _ H)
         | H : exists r, Fulfilled _ = Fulfilled r /\ _ |- _ =>
             let r0 := fresh "r" in
             let E := fresh "E" in
             let S := fresh "S" in
             destruct H as (r0 & E & S); injection E as <-
         | H : exists r, Rejected _ = Fulfilled r /\ _ |- _ =>
             let r0 := fresh "r" in
             let E := fresh "E" in
             destruct H as (r0 & E & _); discriminate E
         | H : success ?r, F : ok ?r = false |- _ =>
             apply ok_success in H; congruence
         end;
  try (left; reflexivity);
  try (right; reflexivity);
  try (cbn [In]; tauto);
  try (eexists; split; [reflexivity | auto with catalog]).
Qed.

